(** * zkevm-cashapp: the payment page and its chain configuration

    A shallow embedding of [src/pages/index.tsx] (the [Home] component with
    its [handlePay] handler) and of [src/const/chains.ts] (the [CHAIN]
    export), together with the properties of the payment flow.

    Layout:
    - [Js]      : the few pieces of ECMAScript semantics the page relies on
                  (exceptions, [ToBoolean]);
    - [Ethers]  : the external [ethers.utils.parseEther] the handler calls;
    - [Chains]  : [src/const/chains.ts];
    - [Page]    : the state, the collaborators and [handlePay] / [Home];
    - the theorems. *)

From Stdlib Require Import ZArith String Ascii List Bool Arith Lia.
Import ListNotations.

Local Open Scope string_scope.
Local Open Scope list_scope.

(* ===================================================================== *)
(** ** ECMAScript values *)
(* ===================================================================== *)

Module Js.

(** A thrown value.  The page never inspects the error it catches, so a
    message is all that is kept of it. *)
Record Error : Type := mkError { message : string }.

(** The completion of a call: it returns a value or it throws. *)
Inductive Throws (A : Type) : Type :=
| Returns (a : A)
| Raises (e : Error).
Arguments Returns {A} a.
Arguments Raises {A} e.

(** The shapes of value whose truthiness the page tests. *)
Inductive Value : Type :=
| undefined
| null
| boolean (b : bool)
| str (s : string)
| object.

(** ECMAScript [ToBoolean]: [undefined], [null], [false] and the empty
    string are falsy; every object is truthy. *)
Definition ToBoolean (v : Value) : bool :=
  match v with
  | undefined => false
  | null => false
  | boolean b => b
  | str s => negb (s =? "")
  | object => true
  end.

(** [x | null] and [x | undefined] where [x] is an object type. *)
Definition nullable {A : Type} (x : option A) : Value :=
  match x with
  | Some _ => object
  | None => null
  end.

(** [string | undefined]. *)
Definition optional_string (x : option string) : Value :=
  match x with
  | Some s => str s
  | None => undefined
  end.

End Js.

Import Js.

(* ===================================================================== *)
(** ** ethers v5: [utils.parseEther] *)
(* ===================================================================== *)

(** [handlePay] calls [ethers.utils.parseEther], which is not part of this
    repository.  The module follows the library's [parseFixed(value, 18)],
    statement by statement, so that the handler can be run on concrete
    amount strings.  A [BigNumber] is an arbitrary-precision integer (a
    JavaScript object wrapping it). *)
Module Ethers.

Definition BigNumber : Type := Z.

(** [a.lt(b)] *)
Definition lt (a b : BigNumber) : bool := (a <? b)%Z.

Definition is_digit (c : ascii) : bool :=
  (48 <=? nat_of_ascii c)%nat && (nat_of_ascii c <=? 57)%nat.

Definition is_dot (c : ascii) : bool := (c =? ".")%char.

Definition is_minus (c : ascii) : bool := (c =? "-")%char.

Fixpoint all_chars (p : ascii -> bool) (s : string) : bool :=
  match s with
  | EmptyString => true
  | String c r => p c && all_chars p r
  end.

(** [value.substring(0, 1) === "-"] *)
Definition starts_with_minus (value : string) : bool :=
  match value with
  | String c _ => is_minus c
  | EmptyString => false
  end.

(** [value.substring(1)] *)
Definition substring1 (value : string) : string :=
  match value with
  | String _ r => r
  | EmptyString => EmptyString
  end.

(** [value.match(/^-?[0-9.]+$/)]: an optional minus sign, then one or more
    characters each a digit or a dot, and nothing else. *)
Definition match_decimal (value : string) : bool :=
  let rest := if starts_with_minus value then substring1 value else value in
  negb (rest =? "") && all_chars (fun c => is_digit c || is_dot c) rest.

(** [value.match(/^-?[0-9]+$/)], the test of [BigNumber.from] on a string. *)
Definition match_integer (value : string) : bool :=
  let rest := if starts_with_minus value then substring1 value else value in
  negb (rest =? "") && all_chars is_digit rest.

(** [value.split(".")]; the empty string splits into one empty piece. *)
Fixpoint split_dot (s : string) : list string :=
  match s with
  | EmptyString => [EmptyString]
  | String c r =>
      if is_dot c then EmptyString :: split_dot r
      else match split_dot r with
           | h :: t => String c h :: t
           | [] => [String c EmptyString]
           end
  end.

(** [while (fraction[fraction.length - 1] === "0")
      fraction = fraction.substring(0, fraction.length - 1);] *)
Fixpoint trim_trailing_zeros (s : string) : string :=
  match s with
  | EmptyString => EmptyString
  | String c r =>
      match trim_trailing_zeros r with
      | EmptyString => if (c =? "0")%char then EmptyString else String c EmptyString
      | r' => String c r'
      end
  end.

Fixpoint zeros (n : nat) : string :=
  match n with
  | O => EmptyString
  | S k => String "0" (zeros k)
  end.

(** [while (fraction.length < n) fraction += "0";] *)
Definition pad_zeros (n : nat) (fraction : string) : string :=
  fraction ++ zeros (n - String.length fraction).

Definition digit_value (c : ascii) : Z := Z.of_nat (nat_of_ascii c - 48).

Fixpoint of_digits (acc : Z) (s : string) : Z :=
  match s with
  | EmptyString => acc
  | String c r => of_digits (10 * acc + digit_value c)%Z r
  end.

(** [BigNumber.from(value)] on a string.  Its hexadecimal branch needs an
    [x] in the string; the strings [parseFixed] passes are made of the
    characters [0-9] alone, so only the decimal branch is kept. *)
Definition BigNumber_from (value : string) : Throws BigNumber :=
  if match_integer value then
    let rest := if starts_with_minus value then substring1 value else value in
    let n := of_digits 0 rest in
    Returns (if starts_with_minus value then (- n)%Z else n)
  else Raises (mkError "invalid BigNumber string").

(** [getMultiplier(decimals)]: ["1"] followed by [decimals] zeros. *)
Definition getMultiplier (decimals : nat) : string := String "1" (zeros decimals).

Definition parseFixed (value : string) (decimals : nat) : Throws BigNumber :=
  let multiplier := getMultiplier decimals in
  if negb (match_decimal value) then Raises (mkError "invalid decimal value")
  else
    let negative := starts_with_minus value in
    let value := if negative then substring1 value else value in
    if value =? "." then Raises (mkError "missing value")
    else
      let comps := split_dot value in
      if (2 <? List.length comps)%nat then Raises (mkError "too many decimal points")
      else
        let whole := nth 0 comps EmptyString in
        let fraction := nth 1 comps EmptyString in
        let whole := if whole =? "" then "0" else whole in
        let fraction := if fraction =? "" then "0" else fraction in
        let fraction := trim_trailing_zeros fraction in
        if (String.length multiplier - 1 <? String.length fraction)%nat
        then Raises (mkError "fractional component exceeds decimals")
        else
          let fraction := if fraction =? "" then "0" else fraction in
          let fraction := pad_zeros (String.length multiplier - 1) fraction in
          match BigNumber_from whole, BigNumber_from fraction,
                BigNumber_from multiplier with
          | Returns wholeValue, Returns fractionValue, Returns m =>
              let wei := (wholeValue * m + fractionValue)%Z in
              Returns (if negative then (wei * -1)%Z else wei)
          | Raises e, _, _ => Raises e
          | _, Raises e, _ => Raises e
          | _, _, Raises e => Raises e
          end.

(** [parseEther(ether) = parseUnits(ether, 18) = parseFixed(ether, 18)] *)
Definition parseEther (ether : string) : Throws BigNumber := parseFixed ether 18.

End Ethers.

(* ===================================================================== *)
(** ** [src/const/chains.ts] *)
(* ===================================================================== *)

Module Chains.

(** The fields of a [@thirdweb-dev/chains] chain object the page and the
    claims look at. *)
Record Chain : Type := mkChain {
  chainId : Z;
  name : string;
  testnet : bool
}.

(** The two chain objects [chains.ts] imports. *)
Definition PolygonZkevm : Chain :=
  {| chainId := 1101; name := "Polygon zkEVM"; testnet := false |}.

Definition PolygonZkevmTestnet : Chain :=
  {| chainId := 1442; name := "Polygon zkEVM Testnet"; testnet := true |}.

(** [process.env.NODE_ENV]: a string, or undefined. *)
Definition Environment : Type := option string.

(** [export const IS_DEV_ENV = process.env.NODE_ENV === "development";] *)
Definition IS_DEV_ENV (NODE_ENV : Environment) : bool :=
  match NODE_ENV with
  | Some e => e =? "development"
  | None => false
  end.

Definition DEVELOPMENT_CHAIN : Chain := PolygonZkevmTestnet.
Definition PRODUCTION_CHAIN : Chain := PolygonZkevmTestnet.

(** [export const CHAIN = IS_DEV_ENV ? DEVELOPMENT_CHAIN : PRODUCTION_CHAIN;] *)
Definition CHAIN (NODE_ENV : Environment) : Chain :=
  if IS_DEV_ENV NODE_ENV then DEVELOPMENT_CHAIN else PRODUCTION_CHAIN.

End Chains.

(* ===================================================================== *)
(** ** [src/pages/index.tsx] *)
(* ===================================================================== *)

Module Page.

Import Ethers.

(** *** Data *)

(** A Lens [Profile], as far as the page reads it. *)
Record Profile : Type := mkProfile {
  id : string;
  name : option string;
  handle : string;
  ownedBy : string;
  picture : option string
}.

(** The [data] of [useBalance()]. *)
Record Balance : Type := mkBalance {
  value : BigNumber;
  displayValue : string;
  symbol : string
}.

(** What [sdk.wallet.transfer] resolves with. *)
Record TransactionReceipt : Type := mkReceipt { transactionHash : string }.
Record TransactionResult : Type := mkResult { receipt : TransactionReceipt }.

(** The connected wallet of the thirdweb SDK: [transfer(to, amount)]
    resolves with a transaction result or rejects. *)
Record SDK : Type := mkSDK {
  wallet_transfer : string -> string -> Throws TransactionResult
}.

(** The component's own state, one field per [useState]. *)
Record State : Type := mkState {
  search : string;
  selectedProfile : option Profile;
  amount : string;
  loadingPay : bool
}.

(** [useState] initial values. *)
Definition initial : State :=
  {| search := ""; selectedProfile := None; amount := ""; loadingPay := false |}.

(** The values the other hooks hand to one render of [Home]. *)
Record Hooks : Type := mkHooks {
  address : option string;            (* useAddress() *)
  wrongNetwork : bool;                (* useNetworkMismatch() *)
  balance : option Balance;           (* useBalance().data *)
  loadingBalance : bool;              (* useBalance().isLoading *)
  sdk : option SDK;                   (* useSDK() *)
  debouncedSearch : string;           (* useDebounce(search, 500)[0] *)
  profiles : option (list Profile);   (* useSearchProfiles(..).data *)
  loadingProfiles : bool              (* useSearchProfiles(..).loading *)
}.

Inductive Variant : Type := default | destructive.

(** The argument of [toast]. *)
Record Toast : Type := mkToast {
  title : string;
  description : string;
  variant : Variant
}.

(** What the handler does to the outside world, in order. *)
Inductive Event : Type :=
| Notify (t : Toast)                       (* toast({...}) *)
| Transfer (to : string) (amount : string) (* sdk.wallet.transfer(to, amount) *).

(** *** The handler's effects

    A handler sets state, emits events and may throw; the three are
    threaded through a small monad. *)

Record Outcome (A : Type) : Type := mkOutcome {
  final : State;
  events : list Event;
  completion : Throws A
}.
Arguments mkOutcome {A} final events completion.
Arguments final {A} o.
Arguments events {A} o.
Arguments completion {A} o.

Definition Effect (A : Type) : Type := State -> Outcome A.

Definition ret {A : Type} (a : A) : Effect A :=
  fun s => mkOutcome s [] (Returns a).

Definition throw {A : Type} (e : Error) : Effect A :=
  fun s => mkOutcome s [] (Raises e).

Definition bind {A B : Type} (m : Effect A) (k : A -> Effect B) : Effect B :=
  fun s =>
    let o := m s in
    match completion o with
    | Returns a =>
        let o' := k a (final o) in
        mkOutcome (final o') (events o ++ events o') (completion o')
    | Raises e => mkOutcome (final o) (events o) (Raises e)
    end.

Notation "x <- m ;; k" := (bind m (fun x => k))
  (at level 61, m at next level, right associativity).
Notation "m ;; k" := (bind m (fun _ => k))
  (at level 61, right associativity).

(** The completion of a call made by the handler. *)
Definition call {A : Type} (r : Throws A) : Effect A :=
  match r with
  | Returns a => ret a
  | Raises e => throw e
  end.

Definition emit (e : Event) : Effect unit :=
  fun s => mkOutcome s [e] (Returns tt).

Definition toast (t : Toast) : Effect unit := emit (Notify t).

Definition setSearch (v : string) : Effect unit :=
  fun s => mkOutcome
    {| search := v; selectedProfile := selectedProfile s;
       amount := amount s; loadingPay := loadingPay s |} [] (Returns tt).

Definition setSelectedProfile (v : option Profile) : Effect unit :=
  fun s => mkOutcome
    {| search := search s; selectedProfile := v;
       amount := amount s; loadingPay := loadingPay s |} [] (Returns tt).

Definition setAmount (v : string) : Effect unit :=
  fun s => mkOutcome
    {| search := search s; selectedProfile := selectedProfile s;
       amount := v; loadingPay := loadingPay s |} [] (Returns tt).

Definition setLoadingPay (v : bool) : Effect unit :=
  fun s => mkOutcome
    {| search := search s; selectedProfile := selectedProfile s;
       amount := amount s; loadingPay := v |} [] (Returns tt).

(** [try { body } catch (error) { handler } finally { cleanup }] *)
Definition try_catch_finally {A : Type}
    (body : Effect A) (handler : Error -> Effect A) (cleanup : Effect unit)
  : Effect A :=
  fun s =>
    let o := body s in
    let o1 :=
      match completion o with
      | Returns _ => o
      | Raises e =>
          let o' := handler e (final o) in
          mkOutcome (final o') (events o ++ events o') (completion o')
      end in
    let o2 := cleanup (final o1) in
    mkOutcome (final o2) (events o1 ++ events o2)
      match completion o2 with
      | Returns _ => completion o1
      | Raises e => Raises e
      end.

(** [await sdk?.wallet.transfer(to, amount)]: with no SDK the optional
    chain yields [undefined] and nothing is called. *)
Definition transfer (k : option SDK) (to amt : string)
  : Effect (option TransactionResult) :=
  match k with
  | None => ret None
  | Some w =>
      emit (Transfer to amt) ;;
      tx <- call (wallet_transfer w to amt) ;;
      ret (Some tx)
  end.

(** [`${tx?.receipt.transactionHash}`] *)
Definition hash_text (tx : option TransactionResult) : string :=
  match tx with
  | Some t => transactionHash (receipt t)
  | None => "undefined"
  end.

(** A [BigNumber] is an object. *)
Definition BigNumber_value (_ : BigNumber) : Value := object.

Definition invalid_profile_toast : Toast :=
  {| title := "Invalid Profile selected.";
     description := "Select a valid profile to send payment to.";
     variant := destructive |}.

Definition invalid_amount_toast : Toast :=
  {| title := "Invalid Amount";
     description := "Please enter a valid amount to pay.";
     variant := destructive |}.

Definition insufficient_balance_toast : Toast :=
  {| title := "Insufficient Balance";
     description := "You don't have enough balance to pay";
     variant := destructive |}.

Definition funds_sent_toast (tx : option TransactionResult) : Toast :=
  {| title := "Funds sent successfully!";
     description := "Transaction Hash: " ++ hash_text tx;
     variant := default |}.

Definition error_toast : Toast :=
  {| title := "An Error Occurred";
     description := "Something went wrong. Please try again.";
     variant := destructive |}.

Section Handlers.

(** [ethers.utils.parseEther] *)
Variable parseEther : string -> Throws BigNumber.

(** The values of the render the handler closes over. *)
Variable h : Hooks.
Variable r : State.

(** [async function handlePay()]; an early [return] is the end of its
    branch. *)
Definition handlePay : Effect unit :=
  setLoadingPay true ;;
  amountBN <- call (parseEther (amount r)) ;;
  match selectedProfile r with
  | None =>                                   (* if (!selectedProfile) *)
      toast invalid_profile_toast
  | Some profile =>
      if negb (ToBoolean (BigNumber_value amountBN)) then   (* if (!amountBN) *)
        toast invalid_amount_toast
      else if ToBoolean (nullable (balance h)) &&
              match balance h with
              | Some b => lt (value b) amountBN
              | None => false
              end
      then                    (* if (balance && balance.value.lt(amountBN)) *)
        toast insufficient_balance_toast
      else
        try_catch_finally
          (tx <- transfer (sdk h) (ownedBy profile) (amount r) ;;
           toast (funds_sent_toast tx) ;;
           setSelectedProfile None ;;
           setAmount "" ;;
           setSearch "")
          (fun _ => toast error_toast)
          (setLoadingPay false)
  end.

(** One click on Pay: the handler run from the state of its render. *)
Definition pay : Outcome unit := handlePay r.

End Handlers.

(** *** Rendering *)

Inductive Action : Type :=
| SwitchChain (chainId : Z)                   (* switchChain(chainId) *)
| SetSearch (v : string)
| SetSelectedProfile (v : option Profile)
| SetAmount (v : string)
| HandlePay.

Inductive Element : Type :=
| Heading (text : string)
| Text (text : string)
| ConnectWallet
| Button (label : string) (disabled : bool) (onClick : Action)
| Input (placeholder : string) (value : string) (onChange : string -> Action)
| Skeleton
| Separator
| Spacer
| ProfileRow (profile : Profile) (onClick : Action)
| ChevronLeft (onClick : Action).

(** The two trees [Home] can return. *)
Inductive View : Type :=
| ConnectPrompt (children : list Element)
| PaymentUI (children : list Element).

(** [{cond && element}] *)
Definition when (cond : bool) (children : list Element) : list Element :=
  if cond then children else [].

(** [{balance?.displayValue} {balance?.symbol}] *)
Definition balance_text (b : option Balance) : string :=
  match b with
  | Some x => displayValue x ++ " " ++ symbol x
  | None => " "
  end.

(** [selectedProfile?.name || selectedProfile?.handle] *)
Definition display_name (p : Profile) : string :=
  match name p with
  | Some n => if ToBoolean (str n) then n else handle p
  | None => handle p
  end.

Section Render.

Variable NODE_ENV : Chains.Environment.
Variable h : Hooks.
Variable r : State.

(** [useDebounce(search, 500)] *)
Definition debounce_arguments : string * Z := (search r, 500%Z).

(** [useSearchProfiles({ query: debouncedSearch })] *)
Definition search_query : string := debouncedSearch h.

Definition connect_prompt : list Element :=
  [Heading "Connect Your Wallet";
   Text "Connect your wallet so we can read your balance and ask you to sign transactions."]
  ++ when (negb (ToBoolean (optional_string (address h)))) [ConnectWallet]
  ++ when (wrongNetwork h)
       [Button "Switch to Polygon zkEVM" false
               (SwitchChain (Chains.chainId (Chains.CHAIN NODE_ENV)))].

Definition no_selection : bool := negb (ToBoolean (nullable (selectedProfile r))).

Definition has_results : bool :=
  match profiles h with
  | Some l => (0 <? List.length l)%nat
  | None => false
  end.

Definition payment_ui : list Element :=
  when no_selection
    [Text "Your Balance";
     (if negb (loadingBalance h) then Heading (balance_text (balance h))
      else Skeleton);
     Separator;
     Heading "Pay Someone";
     Input "Enter a .lens handle" (search r) SetSearch]
  ++ (if no_selection && has_results then [Heading "Results"] else [Spacer])
  ++ (if no_selection && loadingProfiles h then repeat Skeleton 10
      else when no_selection
             (match profiles h with
              | Some l => map (fun p => ProfileRow p (SetSelectedProfile (Some p))) l
              | None => []
              end))
  ++ match selectedProfile r with
     | Some p =>
         [ChevronLeft (SetSelectedProfile None);
          Heading ("Pay " ++ display_name p);
          Text (ownedBy p);
          Input "Amount to pay in ETH" (amount r) SetAmount;
          Button (if loadingPay r then "Paying..." else "Pay") (loadingPay r) HandlePay;
          Text ("Your Balance: " ++ balance_text (balance h))]
     | None => []
     end.

(** [const Home: NextPage = () => { ... }] *)
Definition Home : View :=
  if negb (ToBoolean (optional_string (address h))) || wrongNetwork h
  then ConnectPrompt connect_prompt
  else PaymentUI payment_ui.

End Render.

(** The buttons of a tree and the chain each asks the wallet to switch to. *)
Definition switch_requests (children : list Element) : list Z :=
  flat_map (fun e => match e with
                     | Button _ _ (SwitchChain c) => [c]
                     | _ => []
                     end) children.

End Page.

(* ===================================================================== *)
(** ** The claims' vocabulary and the scenarios *)
(* ===================================================================== *)

Module Claims.

Import Ethers Page.

Fixpoint count_chars (p : ascii -> bool) (s : string) : nat :=
  match s with
  | EmptyString => 0
  | String c r => (if p c then 1 else 0) + count_chars p r
  end.

(** A syntactically valid decimal number: an optional minus sign, then
    digits with at most one decimal point among them, and at least one
    digit. *)
Definition is_decimal_number (s : string) : bool :=
  let body := if starts_with_minus s then substring1 s else s in
  all_chars (fun c => is_digit c || is_dot c) body
  && (count_chars is_dot body <=? 1)%nat
  && (1 <=? count_chars is_digit body)%nat.

(** The state a render leaves behind once [setLoadingPay(true)] ran and
    nothing else did. *)
Definition submitting (r : State) : State :=
  {| search := search r; selectedProfile := selectedProfile r;
     amount := amount r; loadingPay := true |}.

(** The balance is known and less than the amount (the test of line 80,
    as a proposition). *)
Definition exceeds_balance (h : Hooks) (amountBN : BigNumber) : Prop :=
  exists b, balance h = Some b /\ (value b < amountBN)%Z.

(** The data-model invariant as the specification words it, for one click
    on Pay: whenever the transfer is invoked, a profile is selected and
    the amount parses to a strictly positive quantity that does not
    exceed the known balance. *)
Definition payment_request_invariant
    (parseEther : string -> Throws BigNumber) (h : Hooks) (r : State) : Prop :=
  forall to amt,
    In (Transfer to amt) (events (pay parseEther h r)) ->
    exists profile amountBN b,
      selectedProfile r = Some profile /\
      parseEther (amount r) = Returns amountBN /\
      (0 < amountBN)%Z /\
      balance h = Some b /\
      (amountBN <= value b)%Z.

End Claims.

Module Scenario.

Import Ethers Page.

Definition alice : Profile :=
  {| id := "0x01"; name := Some "Alice"; handle := "alice.lens";
     ownedBy := "0xA11CE"; picture := None |}.

(** 1.0 ETH, in wei. *)
Definition one_ether : Balance :=
  {| value := 1000000000000000000%Z; displayValue := "1.0"; symbol := "ETH" |}.

(** A wallet whose transfer resolves with hash [0xabc]. *)
Definition wallet_ok : SDK :=
  {| wallet_transfer := fun _ _ =>
       Returns {| receipt := {| transactionHash := "0xabc" |} |} |}.

(** A wallet whose transfer rejects. *)
Definition wallet_rejects : SDK :=
  {| wallet_transfer := fun _ _ => Raises (mkError "user rejected transaction") |}.

Definition hooks (b : option Balance) (k : option SDK) : Hooks :=
  {| address := Some "0xB0B"; wrongNetwork := false;
     balance := b; loadingBalance := false; sdk := k;
     debouncedSearch := "alice"; profiles := Some [alice];
     loadingProfiles := false |}.

(** Connected, but to another chain. *)
Definition hooks_wrong_network : Hooks :=
  {| address := Some "0xB0B"; wrongNetwork := true;
     balance := None; loadingBalance := true; sdk := None;
     debouncedSearch := ""; profiles := None; loadingProfiles := false |}.

(** Alice picked, [amt] typed into the amount box. *)
Definition reviewing (amt : string) : State :=
  {| search := "alice"; selectedProfile := Some alice;
     amount := amt; loadingPay := false |}.

(** Nobody picked, [amt] as the amount. *)
Definition browsing (amt : string) : State :=
  {| search := "alice"; selectedProfile := None;
     amount := amt; loadingPay := false |}.

End Scenario.

(* ===================================================================== *)
(** ** Using the page: events of the rendered tree *)
(* ===================================================================== *)

Module Interaction.

Import Ethers Page.

Definition children (v : View) : list Element :=
  match v with
  | ConnectPrompt c => c
  | PaymentUI c => c
  end.

(** The handler an element runs when the user acts on it.  A button fires
    its [onClick] unless it is [disabled]; an input fires its [onChange]
    with whatever text the user leaves in it. *)
Inductive fires : Element -> Action -> Prop :=
| fires_button label a : fires (Button label false a) a
| fires_input placeholder value onChange typed :
    fires (Input placeholder value onChange) (onChange typed)
| fires_row profile a : fires (ProfileRow profile a) a
| fires_chevron a : fires (ChevronLeft a) a.

(** An action some element of the tree fires. *)
Definition offers (v : View) (a : Action) : Prop :=
  exists e, In e (children v) /\ fires e a.

(** The profile rows of a tree, each with its [onClick]. *)
Definition rows (l : list Element) : list (Profile * Action) :=
  flat_map (fun e => match e with
                     | ProfileRow p a => [(p, a)]
                     | _ => []
                     end) l.

(** The number of [<Skeleton />] placeholders of a tree. *)
Definition skeletons (l : list Element) : nat :=
  List.length (filter (fun e => match e with
                                | Skeleton => true
                                | _ => false
                                end) l).

(** The Pay buttons of a tree: label and [disabled]. *)
Definition pay_buttons (l : list Element) : list (string * bool) :=
  flat_map (fun e => match e with
                     | Button label disabled HandlePay => [(label, disabled)]
                     | _ => []
                     end) l.

(** The text inputs of a tree: placeholder and value. *)
Definition input_boxes (l : list Element) : list (string * string) :=
  flat_map (fun e => match e with
                     | Input placeholder value _ => [(placeholder, value)]
                     | _ => []
                     end) l.

Section Session.

Variable parseEther : string -> Throws BigNumber.
Variable NODE_ENV : Chains.Environment.

(** The component state once the handler behind an action has run, in a
    render with hook values [h] and state [r].  [switchChain] is the
    wallet's business and touches no state of the page. *)
Definition dispatch (h : Hooks) (r : State) (a : Action) : State :=
  match a with
  | SwitchChain _ => r
  | SetSearch v => final (setSearch v r)
  | SetSelectedProfile v => final (setSelectedProfile v r)
  | SetAmount v => final (setAmount v r)
  | HandlePay => final (pay parseEther h r)
  end.

(** A visit of the page: in each render the hooks hand over some values,
    the user acts on an element of the tree, and the handler runs. *)
Inductive session : State -> State -> Prop :=
| session_done r : session r r
| session_step r h a r' :
    offers (Home NODE_ENV h r) a ->
    session (dispatch h r a) r' ->
    session r r'.

End Session.

End Interaction.

Import Ethers Chains Page Claims Interaction.

(* ===================================================================== *)
(** ** [Ethers.parseEther] *)
(* ===================================================================== *)

Example parseEther_half : parseEther "0.5" = Returns 500000000000000000%Z.
Proof. vm_compute. reflexivity. Qed.

Example parseEther_negative : parseEther "-1.25" = Returns (-1250000000000000000)%Z.
Proof. vm_compute. reflexivity. Qed.

Example parseEther_empty : parseEther "" = Raises (mkError "invalid decimal value").
Proof. vm_compute. reflexivity. Qed.

Example parseEther_lone_dot : parseEther "-." = Raises (mkError "missing value").
Proof. vm_compute. reflexivity. Qed.

Example parseEther_two_dots : parseEther "1.2.3" = Raises (mkError "too many decimal points").
Proof. vm_compute. reflexivity. Qed.

Example parseEther_19_places :
  parseEther "1.0000000000000000001" = Raises (mkError "fractional component exceeds decimals").
Proof. vm_compute. reflexivity. Qed.

Example parseEther_trailing_zeros :
  parseEther "1.00000000000000000100" = Returns 1000000000000000001%Z.
Proof. vm_compute. reflexivity. Qed.

(* ===================================================================== *)
(** ** The paths of [handlePay] *)
(* ===================================================================== *)

Section HandlePayPaths.

Variable parseEther : string -> Throws BigNumber.
Variable h : Hooks.
Variable r : State.

Lemma balance_test_true amountBN :
  exceeds_balance h amountBN ->
  ToBoolean (nullable (balance h)) &&
    match balance h with
    | Some b => lt (value b) amountBN
    | None => false
    end = true.
Proof.
  intros [b [Hb Hlt]]. rewrite Hb. cbn. unfold lt.
  apply Z.ltb_lt. exact Hlt.
Qed.

Lemma balance_test_false amountBN :
  (forall b, balance h = Some b -> (amountBN <= value b)%Z) ->
  ToBoolean (nullable (balance h)) &&
    match balance h with
    | Some b => lt (value b) amountBN
    | None => false
    end = false.
Proof.
  intros Hle. destruct (balance h) as [b|]; cbn; [|reflexivity].
  unfold lt. apply Z.ltb_ge. apply Hle. reflexivity.
Qed.

Lemma balance_test_cases amountBN :
  exceeds_balance h amountBN \/
  (forall b, balance h = Some b -> (amountBN <= value b)%Z).
Proof.
  destruct (balance h) as [b|] eqn:Hb.
  - destruct (Z_lt_le_dec (value b) amountBN) as [Hlt|Hle].
    + left. exists b. split; [exact Hb | exact Hlt].
    + right. intros b' Hb'. injection Hb' as <-. exact Hle.
  - right. intros b' Hb'. discriminate Hb'.
Qed.

(** Line 59 throws: the handler stops after [setLoadingPay(true)]. *)
Lemma pay_parse_raises e :
  parseEther (amount r) = Raises e ->
  pay parseEther h r = mkOutcome (submitting r) [] (Raises e).
Proof.
  intros Hp. unfold pay, handlePay, bind. cbn. rewrite Hp. reflexivity.
Qed.

(** Lines 61-68. *)
Lemma pay_no_profile amountBN :
  parseEther (amount r) = Returns amountBN ->
  selectedProfile r = None ->
  pay parseEther h r =
    mkOutcome (submitting r) [Notify invalid_profile_toast] (Returns tt).
Proof.
  intros Hp Hs. unfold pay, handlePay, bind, submitting. cbn. rewrite Hp. cbn.
  rewrite Hs. reflexivity.
Qed.

(** Lines 79-87. *)
Lemma pay_insufficient profile amountBN :
  parseEther (amount r) = Returns amountBN ->
  selectedProfile r = Some profile ->
  exceeds_balance h amountBN ->
  pay parseEther h r =
    mkOutcome (submitting r) [Notify insufficient_balance_toast] (Returns tt).
Proof.
  intros Hp Hs Hb. unfold pay, handlePay, bind, submitting. cbn. rewrite Hp. cbn.
  rewrite Hs. rewrite (balance_test_true _ Hb). reflexivity.
Qed.

(** Lines 89-110: the handler reaches the [try]. *)
Lemma pay_reaches_try profile amountBN :
  parseEther (amount r) = Returns amountBN ->
  selectedProfile r = Some profile ->
  (forall b, balance h = Some b -> (amountBN <= value b)%Z) ->
  pay parseEther h r =
    match sdk h with
    | None =>
        mkOutcome initial [Notify (funds_sent_toast None)] (Returns tt)
    | Some w =>
        match wallet_transfer w (ownedBy profile) (amount r) with
        | Returns tx =>
            mkOutcome initial
              [Transfer (ownedBy profile) (amount r);
               Notify (funds_sent_toast (Some tx))]
              (Returns tt)
        | Raises _ =>
            mkOutcome
              {| search := search r; selectedProfile := selectedProfile r;
                 amount := amount r; loadingPay := false |}
              [Transfer (ownedBy profile) (amount r); Notify error_toast]
              (Returns tt)
        end
    end.
Proof.
  intros Hp Hs Hb. unfold pay, handlePay, bind. cbn. rewrite Hp. cbn.
  rewrite Hs. rewrite (balance_test_false _ Hb).
  unfold try_catch_finally, transfer, bind.
  destruct (sdk h) as [w|]; cbn; [|reflexivity].
  destruct (wallet_transfer w (ownedBy profile) (amount r)); reflexivity.
Qed.

(** The handler takes one of the four paths. *)
Lemma pay_cases :
  (exists e, parseEther (amount r) = Raises e) \/
  (exists amountBN, parseEther (amount r) = Returns amountBN /\
                    selectedProfile r = None) \/
  (exists amountBN profile, parseEther (amount r) = Returns amountBN /\
                            selectedProfile r = Some profile /\
                            exceeds_balance h amountBN) \/
  (exists amountBN profile, parseEther (amount r) = Returns amountBN /\
                            selectedProfile r = Some profile /\
                            forall b, balance h = Some b -> (amountBN <= value b)%Z).
Proof.
  destruct (parseEther (amount r)) as [amountBN|e] eqn:Hp.
  - right. destruct (selectedProfile r) as [profile|] eqn:Hs.
    + right. destruct (balance_test_cases amountBN) as [Hb|Hb].
      * left. exists amountBN, profile. auto.
      * right. exists amountBN, profile. auto.
    + left. exists amountBN. auto.
  - left. exists e. reflexivity.
Qed.

(** Line 70's test never succeeds, whatever the amount: a [BigNumber] is
    an object, so the "Invalid Amount" notification is never shown. *)
Lemma invalid_amount_toast_never_shown :
  ~ In (Notify invalid_amount_toast) (events (pay parseEther h r)).
Proof.
  destruct pay_cases as [[e Hp]|[[a [Hp Hs]]|[[a [p [Hp [Hs Hb]]]]|[a [p [Hp [Hs Hb]]]]]]].
  - rewrite (pay_parse_raises _ Hp). cbn. tauto.
  - rewrite (pay_no_profile _ Hp Hs). cbn. intros [H|[]]. discriminate H.
  - rewrite (pay_insufficient _ _ Hp Hs Hb). cbn. intros [H|[]]. discriminate H.
  - rewrite (pay_reaches_try _ _ Hp Hs Hb).
    destruct (sdk h) as [w|].
    + destruct (wallet_transfer w (ownedBy p) (amount r)); cbn;
        intros [H|[H|[]]]; discriminate H.
    + cbn. intros [H|[]]. discriminate H.
Qed.

(** Once the [try] is entered, [finally] clears the flag. *)
Lemma pay_try_clears_flag profile amountBN :
  parseEther (amount r) = Returns amountBN ->
  selectedProfile r = Some profile ->
  (forall b, balance h = Some b -> (amountBN <= value b)%Z) ->
  loadingPay (final (pay parseEther h r)) = false.
Proof.
  intros Hp Hs Hb. rewrite (pay_reaches_try _ _ Hp Hs Hb).
  destruct (sdk h) as [w|]; [|reflexivity].
  destruct (wallet_transfer w (ownedBy profile) (amount r)); reflexivity.
Qed.

End HandlePayPaths.

(* ===================================================================== *)
(** ** Amount strings [parseEther] accepts *)
(* ===================================================================== *)

Section DecimalSyntax.

Let digit_or_dot := fun c => is_digit c || is_dot c.

Lemma split_dot_length s :
  List.length (split_dot s) = S (count_chars is_dot s).
Proof.
  induction s as [|c s IH]; cbn; [reflexivity|].
  destruct (is_dot c); cbn.
  - rewrite IH. reflexivity.
  - destruct (split_dot s) as [|x t]; cbn in *; [discriminate IH | exact IH].
Qed.

Lemma digit_is_not_dot c : is_digit c = true -> is_dot c = false.
Proof.
  intros Hd. unfold is_dot. destruct (Ascii.eqb c ".") eqn:E; [|reflexivity].
  apply Ascii.eqb_eq in E. subst c. discriminate Hd.
Qed.

Lemma length_digits_dots s :
  all_chars digit_or_dot s = true ->
  String.length s = count_chars is_digit s + count_chars is_dot s.
Proof.
  induction s as [|c s IH]; cbn; [reflexivity|].
  intros H. apply andb_true_iff in H. destruct H as [Hc Hs].
  specialize (IH Hs). unfold digit_or_dot in Hc.
  destruct (is_digit c) eqn:Hd.
  - rewrite (digit_is_not_dot c Hd). cbn. lia.
  - cbn in Hc. rewrite Hc. cbn. lia.
Qed.

(** A non-empty string of digits and dots with no digit and at most one
    dot is the lone dot. *)
Lemma no_digit_is_lone_dot s :
  s <> "" ->
  all_chars digit_or_dot s = true ->
  (count_chars is_dot s <= 1)%nat ->
  count_chars is_digit s = 0%nat ->
  s = ".".
Proof.
  intros Hne Hall Hdots Hdigits.
  pose proof (length_digits_dots s Hall) as Hlen.
  destruct s as [|c s]; [contradiction Hne; reflexivity|].
  destruct s as [|c' s']; [|cbn in Hlen; cbn in Hdots, Hdigits; lia].
  cbn in Hall, Hdigits. unfold digit_or_dot in Hall.
  destruct (is_digit c); [discriminate Hdigits|].
  cbn in Hall. rewrite andb_true_r in Hall.
  unfold is_dot in Hall. apply Ascii.eqb_eq in Hall. subst c. reflexivity.
Qed.

(** What [parseEther] returns a quantity for is a decimal number. *)
Lemma parseEther_returns_decimal s amountBN :
  parseEther s = Returns amountBN -> is_decimal_number s = true.
Proof.
  unfold parseEther, parseFixed. cbv zeta.
  destruct (match_decimal s) eqn:Hm; cbn [negb]; [|discriminate].
  unfold match_decimal in Hm. unfold is_decimal_number.
  set (body := if starts_with_minus s then substring1 s else s) in *.
  apply andb_true_iff in Hm. destruct Hm as [Hne Hall].
  destruct (body =? ".") eqn:Hdot; [discriminate|].
  destruct (2 <? List.length (split_dot body))%nat eqn:Hcomps; [discriminate|].
  intros _.
  apply Nat.ltb_ge in Hcomps. rewrite split_dot_length in Hcomps.
  assert (Hdots : (count_chars is_dot body <= 1)%nat) by lia.
  fold digit_or_dot in Hall |- *. rewrite Hall. cbn [andb].
  apply andb_true_iff. split.
  - apply Nat.leb_le. exact Hdots.
  - apply Nat.leb_le.
    destruct (count_chars is_digit body) eqn:Hdigits; [|lia].
    exfalso.
    apply String.eqb_neq in Hdot. apply Hdot.
    apply no_digit_is_lone_dot; auto.
    apply negb_true_iff in Hne. apply String.eqb_neq in Hne. exact Hne.
Qed.

(** Anything else makes [parseEther] throw. *)
Lemma parseEther_raises_on_malformed s :
  is_decimal_number s = false -> exists e, parseEther s = Raises e.
Proof.
  intros Hs. destruct (parseEther s) as [amountBN|e] eqn:Hp.
  - apply parseEther_returns_decimal in Hp. congruence.
  - exists e. reflexivity.
Qed.

End DecimalSyntax.

(* ===================================================================== *)
(** ** The pay operation *)
(* ===================================================================== *)

(** C1, evaluated on the code.  With Alice selected and 1.0 ETH of balance,
    the amounts ["abc"] and the empty string make line 59 throw before any
    notification; the amounts ["0"] and ["-1"], which parse to quantities
    that are not positive, pass line 70 and are transferred.  In none of
    the four runs is "Invalid Amount" shown. *)
Theorem handlePay_invalid_amount_not_rejected :
  let h := Scenario.hooks (Some Scenario.one_ether) (Some Scenario.wallet_ok) in
  pay parseEther h (Scenario.reviewing "abc") =
    mkOutcome (submitting (Scenario.reviewing "abc")) []
              (Raises (mkError "invalid decimal value")) /\
  pay parseEther h (Scenario.reviewing "") =
    mkOutcome (submitting (Scenario.reviewing "")) []
              (Raises (mkError "invalid decimal value")) /\
  events (pay parseEther h (Scenario.reviewing "0")) =
    [Transfer "0xA11CE" "0";
     Notify (funds_sent_toast (Some {| receipt := {| transactionHash := "0xabc" |} |}))] /\
  events (pay parseEther h (Scenario.reviewing "-1")) =
    [Transfer "0xA11CE" "-1";
     Notify (funds_sent_toast (Some {| receipt := {| transactionHash := "0xabc" |} |}))].
Proof. vm_compute. repeat split. Qed.

(** C2.  With a profile selected and an amount that parses, a known balance
    strictly below the requested amount makes [handlePay] show exactly the
    "Insufficient Balance" notification and return; the transfer is not
    invoked. *)
Theorem handlePay_rejects_insufficient_balance
    (parseEther : string -> Throws BigNumber) (h : Hooks) (r : State)
    (profile : Profile) (amountBN : BigNumber) (b : Balance) :
  selectedProfile r = Some profile ->
  parseEther (amount r) = Returns amountBN ->
  balance h = Some b ->
  (value b < amountBN)%Z ->
  pay parseEther h r =
    mkOutcome (submitting r) [Notify insufficient_balance_toast] (Returns tt) /\
  title insufficient_balance_toast = "Insufficient Balance" /\
  forall to amt, ~ In (Transfer to amt) (events (pay parseEther h r)).
Proof.
  intros Hs Hp Hb Hlt.
  assert (Hx : exceeds_balance h amountBN) by (exists b; auto).
  rewrite (pay_insufficient parseEther h r profile amountBN Hp Hs Hx).
  repeat split. cbn. intros to amt [H|[]]. discriminate H.
Qed.

Lemma handlePay_rejects_insufficient_balance_witness :
  let h := Scenario.hooks (Some Scenario.one_ether) (Some Scenario.wallet_ok) in
  let r := Scenario.reviewing "2.0" in
  pay parseEther h r =
    mkOutcome (submitting r) [Notify insufficient_balance_toast] (Returns tt) /\
  title insufficient_balance_toast = "Insufficient Balance" /\
  forall to amt, ~ In (Transfer to amt) (events (pay parseEther h r)).
Proof.
  apply (handlePay_rejects_insufficient_balance parseEther
           (Scenario.hooks (Some Scenario.one_ether) (Some Scenario.wallet_ok))
           (Scenario.reviewing "2.0") Scenario.alice
           2000000000000000000%Z Scenario.one_ether).
  - reflexivity.
  - vm_compute. reflexivity.
  - reflexivity.
  - vm_compute. reflexivity.
Defined.




(** C4.  Whenever [handlePay] invokes the transfer: if the call resolves,
    the handler then shows "Funds sent successfully!" with the transaction
    hash in its description and leaves the search text empty, no profile
    selected and the amount empty; if the call rejects, with any error, it
    shows the generic notification "An Error Occurred" / "Something went
    wrong. Please try again." and search text, selected profile and amount
    are what they were. *)
Theorem handlePay_transfer_outcome
    (parseEther : string -> Throws BigNumber) (h : Hooks) (r : State)
    (w : SDK) (to amt : string) :
  sdk h = Some w ->
  In (Transfer to amt) (events (pay parseEther h r)) ->
  (forall tx, wallet_transfer w to amt = Returns tx ->
     events (pay parseEther h r) =
       [Transfer to amt;
        Notify {| title := "Funds sent successfully!";
                  description := "Transaction Hash: " ++ transactionHash (receipt tx);
                  variant := default |}] /\
     search (final (pay parseEther h r)) = "" /\
     selectedProfile (final (pay parseEther h r)) = None /\
     amount (final (pay parseEther h r)) = "" /\
     completion (pay parseEther h r) = Returns tt) /\
  (forall e, wallet_transfer w to amt = Raises e ->
     events (pay parseEther h r) =
       [Transfer to amt;
        Notify {| title := "An Error Occurred";
                  description := "Something went wrong. Please try again.";
                  variant := destructive |}] /\
     search (final (pay parseEther h r)) = search r /\
     selectedProfile (final (pay parseEther h r)) = selectedProfile r /\
     amount (final (pay parseEther h r)) = amount r /\
     completion (pay parseEther h r) = Returns tt).
Proof.
  intros Hw Hin.
  destruct (pay_cases parseEther h r)
    as [[e Hp]|[[a [Hp Hs]]|[[a [p [Hp [Hs Hb]]]]|[a [p [Hp [Hs Hb]]]]]]].
  - rewrite (pay_parse_raises _ _ _ _ Hp) in Hin. destruct Hin.
  - rewrite (pay_no_profile _ _ _ _ Hp Hs) in Hin.
    destruct Hin as [H|[]]. discriminate H.
  - rewrite (pay_insufficient _ _ _ _ _ Hp Hs Hb) in Hin.
    destruct Hin as [H|[]]. discriminate H.
  - rewrite (pay_reaches_try _ _ _ _ _ Hp Hs Hb) in Hin |- *.
    rewrite Hw in Hin |- *.
    destruct (wallet_transfer w (ownedBy p) (amount r)) as [tx0|e0] eqn:Hcall;
      (destruct Hin as [H|[H|[]]]; [|discriminate H]);
      injection H as <- <-; rewrite Hcall; split; intros x Hx;
      try discriminate Hx.
    + injection Hx as <-. repeat split.
    + repeat split.
Qed.

Lemma handlePay_transfer_outcome_witness :
  (events (pay parseEther
             (Scenario.hooks (Some Scenario.one_ether) (Some Scenario.wallet_ok))
             (Scenario.reviewing "0.5")) =
     [Transfer "0xA11CE" "0.5";
      Notify {| title := "Funds sent successfully!";
                description := "Transaction Hash: 0xabc";
                variant := default |}] /\
   final (pay parseEther
            (Scenario.hooks (Some Scenario.one_ether) (Some Scenario.wallet_ok))
            (Scenario.reviewing "0.5")) = initial) /\
  (events (pay parseEther
             (Scenario.hooks (Some Scenario.one_ether) (Some Scenario.wallet_rejects))
             (Scenario.reviewing "0.5")) =
     [Transfer "0xA11CE" "0.5";
      Notify {| title := "An Error Occurred";
                description := "Something went wrong. Please try again.";
                variant := destructive |}] /\
   final (pay parseEther
            (Scenario.hooks (Some Scenario.one_ether) (Some Scenario.wallet_rejects))
            (Scenario.reviewing "0.5")) = Scenario.reviewing "0.5").
Proof.
  split.
  - destruct (handlePay_transfer_outcome parseEther
                (Scenario.hooks (Some Scenario.one_ether) (Some Scenario.wallet_ok))
                (Scenario.reviewing "0.5") Scenario.wallet_ok "0xA11CE" "0.5")
      as [Hok _].
    + reflexivity.
    + vm_compute. left. reflexivity.
    + destruct (Hok {| receipt := {| transactionHash := "0xabc" |} |} eq_refl)
        as [Hev _].
      split; [exact Hev | vm_compute; reflexivity].
  - destruct (handlePay_transfer_outcome parseEther
                (Scenario.hooks (Some Scenario.one_ether) (Some Scenario.wallet_rejects))
                (Scenario.reviewing "0.5") Scenario.wallet_rejects "0xA11CE" "0.5")
      as [_ Hko].
    + reflexivity.
    + vm_compute. left. reflexivity.
    + destruct (Hko (mkError "user rejected transaction") eq_refl) as [Hev _].
      split; [exact Hev | vm_compute; reflexivity].
Defined.

(** C5, as the code has it.  The transfer is invoked only when a profile is
    selected, the amount string parses to a quantity, and that quantity
    does not exceed the balance whenever the balance is known; it is then
    invoked with the profile's owning address and the amount string. *)
Theorem transfer_only_after_checks
    (parseEther : string -> Throws BigNumber) (h : Hooks) (r : State)
    (to amt : string) :
  In (Transfer to amt) (events (pay parseEther h r)) ->
  exists profile amountBN,
    selectedProfile r = Some profile /\
    to = ownedBy profile /\
    amt = amount r /\
    parseEther (amount r) = Returns amountBN /\
    forall b, balance h = Some b -> (amountBN <= value b)%Z.
Proof.
  intros Hin.
  destruct (pay_cases parseEther h r)
    as [[e Hp]|[[a [Hp Hs]]|[[a [p [Hp [Hs Hb]]]]|[a [p [Hp [Hs Hb]]]]]]].
  - rewrite (pay_parse_raises _ _ _ _ Hp) in Hin. destruct Hin.
  - rewrite (pay_no_profile _ _ _ _ Hp Hs) in Hin.
    destruct Hin as [H|[]]. discriminate H.
  - rewrite (pay_insufficient _ _ _ _ _ Hp Hs Hb) in Hin.
    destruct Hin as [H|[]]. discriminate H.
  - exists p, a.
    rewrite (pay_reaches_try _ _ _ _ _ Hp Hs Hb) in Hin.
    assert (Hev : to = ownedBy p /\ amt = amount r).
    { destruct (sdk h) as [w|].
      - destruct (wallet_transfer w (ownedBy p) (amount r));
          (destruct Hin as [H|[H|[]]]; [|discriminate H]);
          injection H as <- <-; split; reflexivity.
      - destruct Hin as [H|[]]. discriminate H. }
    destruct Hev as [Hto Hamt]. repeat split; assumption.
Qed.

Lemma transfer_only_after_checks_witness :
  exists profile amountBN,
    selectedProfile (Scenario.reviewing "0.5") = Some profile /\
    "0xA11CE" = ownedBy profile /\
    "0.5" = amount (Scenario.reviewing "0.5") /\
    parseEther (amount (Scenario.reviewing "0.5")) = Returns amountBN /\
    forall b,
      balance (Scenario.hooks (Some Scenario.one_ether) (Some Scenario.wallet_ok)) = Some b ->
      (amountBN <= value b)%Z.
Proof.
  apply (transfer_only_after_checks parseEther
           (Scenario.hooks (Some Scenario.one_ether) (Some Scenario.wallet_ok))
           (Scenario.reviewing "0.5") "0xA11CE" "0.5").
  vm_compute. left. reflexivity.
Defined.

(** C5 as stated fails twice.  While the balance is still loading the
    amount ["1"] is transferred although no balance is known; and with 1.0
    ETH of balance the amount ["0"], which is not strictly positive, is
    transferred. *)
Lemma payment_request_invariant_fails :
  ~ payment_request_invariant parseEther
      (Scenario.hooks None (Some Scenario.wallet_ok)) (Scenario.reviewing "1") /\
  ~ payment_request_invariant parseEther
      (Scenario.hooks (Some Scenario.one_ether) (Some Scenario.wallet_ok))
      (Scenario.reviewing "0").
Proof.
  split; intros Hinv.
  - destruct (Hinv "0xA11CE" "1") as [p [a [b [_ [_ [_ [Hb _]]]]]]].
    + vm_compute. left. reflexivity.
    + discriminate Hb.
  - destruct (Hinv "0xA11CE" "0") as [p [a [b [_ [Hp [Hpos _]]]]]].
    + vm_compute. left. reflexivity.
    + vm_compute in Hp. injection Hp as <-. discriminate Hpos.
Qed.

(** C6, evaluated on the code.  The two early returns that can be reached
    (no profile selected; balance too low) leave the in-progress flag set,
    and so does the throw of line 59; only the runs that enter the [try]
    clear it. *)
Theorem handlePay_early_exit_leaves_flag_set :
  let h := Scenario.hooks (Some Scenario.one_ether) (Some Scenario.wallet_ok) in
  let h' := Scenario.hooks (Some Scenario.one_ether) (Some Scenario.wallet_rejects) in
  pay parseEther h (Scenario.browsing "1") =
    mkOutcome (submitting (Scenario.browsing "1"))
              [Notify invalid_profile_toast] (Returns tt) /\
  loadingPay (final (pay parseEther h (Scenario.browsing "1"))) = true /\
  loadingPay (final (pay parseEther h (Scenario.reviewing "2.0"))) = true /\
  loadingPay (final (pay parseEther h (Scenario.reviewing ""))) = true /\
  loadingPay (final (pay parseEther h (Scenario.reviewing "0.5"))) = false /\
  loadingPay (final (pay parseEther h' (Scenario.reviewing "0.5"))) = false.
Proof. vm_compute. repeat split. Qed.

(** C10.  An amount string that is not a decimal number makes [handlePay]
    throw at the parsing step, whatever the selected profile, the balance
    and the wallet are: no notification is shown, the transfer is not
    invoked, the state is untouched but for the in-progress flag, which
    stays set.  The initial amount, the empty string, is such a string. *)
Theorem handlePay_throws_on_malformed_amount (h : Hooks) (r : State) :
  is_decimal_number (amount r) = false ->
  exists e,
    pay parseEther h r = mkOutcome (submitting r) [] (Raises e) /\
    loadingPay (final (pay parseEther h r)) = true.
Proof.
  intros Hs. destruct (parseEther_raises_on_malformed _ Hs) as [e He].
  exists e. rewrite (pay_parse_raises parseEther h r e He). split; reflexivity.
Qed.

Lemma handlePay_throws_on_malformed_amount_witness :
  is_decimal_number (amount initial) = false /\
  exists e,
    pay parseEther (Scenario.hooks (Some Scenario.one_ether) (Some Scenario.wallet_ok))
        initial = mkOutcome (submitting initial) [] (Raises e) /\
    loadingPay
      (final (pay parseEther
                (Scenario.hooks (Some Scenario.one_ether) (Some Scenario.wallet_ok))
                initial)) = true.
Proof.
  split.
  - reflexivity.
  - apply (handlePay_throws_on_malformed_amount
             (Scenario.hooks (Some Scenario.one_ether) (Some Scenario.wallet_ok))
             initial).
    reflexivity.
Defined.

(* ===================================================================== *)
(** ** Gating and configuration *)
(* ===================================================================== *)

(** With a wallet connected on the right network the payment UI is what
    [Home] returns. *)
Lemma Home_connected NODE_ENV h r a :
  address h = Some a -> a <> "" -> wrongNetwork h = false ->
  Home NODE_ENV h r = PaymentUI (payment_ui h r).
Proof.
  intros Ha Hne Hw. unfold Home. rewrite Ha, Hw. cbn.
  apply String.eqb_neq in Hne. rewrite Hne. reflexivity.
Qed.

(** C7.  When no wallet is connected or the wallet is on the wrong network,
    [Home] returns the connect prompt and not the payment UI; the prompt
    holds the connect-wallet control when no wallet is connected and the
    switch button when the network is wrong, and every switch button of
    the prompt calls [switchChain] with [CHAIN.chainId]. *)
Theorem Home_gated (NODE_ENV : Environment) (h : Hooks) (r : State) :
  address h = None \/ wrongNetwork h = true ->
  Home NODE_ENV h r = ConnectPrompt (connect_prompt NODE_ENV h) /\
  (address h = None -> In ConnectWallet (connect_prompt NODE_ENV h)) /\
  (wrongNetwork h = true ->
     In (Button "Switch to Polygon zkEVM" false
                (SwitchChain (chainId (CHAIN NODE_ENV))))
        (connect_prompt NODE_ENV h) /\
     switch_requests (connect_prompt NODE_ENV h) = [chainId (CHAIN NODE_ENV)]) /\
  (forall c, In c (switch_requests (connect_prompt NODE_ENV h)) ->
             c = chainId (CHAIN NODE_ENV)).
Proof.
  intros Hgate. split; [|split; [|split]].
  - unfold Home. destruct Hgate as [Ha|Hw].
    + rewrite Ha. reflexivity.
    + rewrite Hw, orb_true_r. reflexivity.
  - intros Ha. unfold connect_prompt. rewrite Ha. cbn. auto.
  - intros Hw. unfold connect_prompt. rewrite Hw. split.
    + apply in_or_app. right. apply in_or_app. right. left. reflexivity.
    + destruct (negb (ToBoolean (optional_string (address h)))); reflexivity.
  - unfold connect_prompt.
    destruct (negb (ToBoolean (optional_string (address h))));
      destruct (wrongNetwork h); cbn; intros c Hc;
      try (destruct Hc as [Hc|[]]; symmetry; exact Hc); destruct Hc.
Qed.

Lemma Home_gated_witness :
  Home (Some "production") Scenario.hooks_wrong_network initial =
    ConnectPrompt
      [Heading "Connect Your Wallet";
       Text "Connect your wallet so we can read your balance and ask you to sign transactions.";
       Button "Switch to Polygon zkEVM" false (SwitchChain 1442)] /\
  switch_requests (connect_prompt (Some "production") Scenario.hooks_wrong_network) =
    [chainId (CHAIN (Some "production"))].
Proof.
  destruct (Home_gated (Some "production") Scenario.hooks_wrong_network initial)
    as [Hhome [_ [Hswitch _]]].
  - right. reflexivity.
  - split.
    + rewrite Hhome. reflexivity.
    + apply Hswitch. reflexivity.
Defined.

(** C9, evaluated on the code.  [DEVELOPMENT_CHAIN] and [PRODUCTION_CHAIN]
    are both the test network, so [CHAIN] is the test network whatever
    [NODE_ENV] is: under "production" it is chain 1442, the chain of
    "development", and not the production network 1101. *)
Theorem CHAIN_is_testnet_in_every_environment :
  (forall NODE_ENV, CHAIN NODE_ENV = PolygonZkevmTestnet) /\
  IS_DEV_ENV (Some "development") = true /\
  IS_DEV_ENV (Some "production") = false /\
  CHAIN (Some "production") = CHAIN (Some "development") /\
  chainId (CHAIN (Some "production")) = 1442%Z /\
  testnet (CHAIN (Some "production")) = true /\
  CHAIN (Some "production") <> PolygonZkevm.
Proof.
  repeat split; try discriminate.
  intros NODE_ENV. unfold CHAIN. destruct (IS_DEV_ENV NODE_ENV); reflexivity.
Qed.

(* ===================================================================== *)
(** ** More on [handlePay] *)
(* ===================================================================== *)

(** X1.  The promise of [handlePay] rejects exactly when [parseEther]
    throws on the amount, and then with that error: a rejecting transfer
    is caught and never escapes the handler. *)
Theorem handlePay_rejects_iff_parse_throws
    (parseEther : string -> Throws BigNumber) (h : Hooks) (r : State) (e : Error) :
  completion (pay parseEther h r) = Raises e <-> parseEther (amount r) = Raises e.
Proof.
  destruct (pay_cases parseEther h r)
    as [[e' Hp]|[[a [Hp Hs]]|[[a [p [Hp [Hs Hb]]]]|[a [p [Hp [Hs Hb]]]]]]].
  - rewrite (pay_parse_raises _ _ _ _ Hp), Hp. cbn.
    split; intros H; injection H as ->; reflexivity.
  - rewrite (pay_no_profile _ _ _ _ Hp Hs), Hp. cbn. split; discriminate.
  - rewrite (pay_insufficient _ _ _ _ _ Hp Hs Hb), Hp. cbn. split; discriminate.
  - rewrite (pay_reaches_try _ _ _ _ _ Hp Hs Hb), Hp.
    destruct (sdk h) as [w|];
      [destruct (wallet_transfer w (ownedBy p) (amount r))|];
      cbn; split; discriminate.
Qed.

(** X2.  When [useSDK()] has no SDK yet and the three checks pass, the
    optional chain of line 91 calls nothing, and the handler still
    announces success, with the text "Transaction Hash: undefined", and
    clears the form. *)
Theorem handlePay_without_sdk_announces_success
    (parseEther : string -> Throws BigNumber) (h : Hooks) (r : State)
    (profile : Profile) (amountBN : BigNumber) :
  sdk h = None ->
  selectedProfile r = Some profile ->
  parseEther (amount r) = Returns amountBN ->
  (forall b, balance h = Some b -> (amountBN <= value b)%Z) ->
  pay parseEther h r =
    mkOutcome initial
      [Notify {| title := "Funds sent successfully!";
                 description := "Transaction Hash: undefined";
                 variant := default |}]
      (Returns tt).
Proof.
  intros Hk Hs Hp Hb.
  rewrite (pay_reaches_try _ _ _ _ _ Hp Hs Hb), Hk. reflexivity.
Qed.

Lemma handlePay_without_sdk_announces_success_witness :
  pay parseEther (Scenario.hooks (Some Scenario.one_ether) None)
      (Scenario.reviewing "0.5") =
    mkOutcome initial
      [Notify {| title := "Funds sent successfully!";
                 description := "Transaction Hash: undefined";
                 variant := default |}]
      (Returns tt).
Proof.
  apply (handlePay_without_sdk_announces_success parseEther
           (Scenario.hooks (Some Scenario.one_ether) None)
           (Scenario.reviewing "0.5") Scenario.alice 500000000000000000%Z).
  - reflexivity.
  - reflexivity.
  - vm_compute. reflexivity.
  - intros b Hb. injection Hb as <-. vm_compute. discriminate.
Defined.

(** X3.  One click on Pay shows at most one notification and asks the
    wallet for at most one transfer: its events are nothing at all (and
    then it threw), one notification, or one transfer followed by one
    notification. *)
Theorem handlePay_events_shape
    (parseEther : string -> Throws BigNumber) (h : Hooks) (r : State) :
  (events (pay parseEther h r) = [] /\
   exists e, completion (pay parseEther h r) = Raises e) \/
  (exists t, events (pay parseEther h r) = [Notify t]) \/
  (exists to amt t, events (pay parseEther h r) = [Transfer to amt; Notify t]).
Proof.
  destruct (pay_cases parseEther h r)
    as [[e Hp]|[[a [Hp Hs]]|[[a [p [Hp [Hs Hb]]]]|[a [p [Hp [Hs Hb]]]]]]].
  - left. rewrite (pay_parse_raises _ _ _ _ Hp). split; [reflexivity|].
    exists e. reflexivity.
  - right. left. rewrite (pay_no_profile _ _ _ _ Hp Hs). eexists. reflexivity.
  - right. left. rewrite (pay_insufficient _ _ _ _ _ Hp Hs Hb).
    eexists. reflexivity.
  - right. rewrite (pay_reaches_try _ _ _ _ _ Hp Hs Hb).
    destruct (sdk h) as [w|].
    + right. destruct (wallet_transfer w (ownedBy p) (amount r));
        do 3 eexists; reflexivity.
    + left. eexists. reflexivity.
Qed.

(** X4.  [handlePay] touches the form only to announce success: either
    search text, selected profile and amount are what they were, or the
    success notification was shown and the state is the initial one. *)
Theorem handlePay_keeps_form_unless_success
    (parseEther : string -> Throws BigNumber) (h : Hooks) (r : State) :
  (search (final (pay parseEther h r)) = search r /\
   selectedProfile (final (pay parseEther h r)) = selectedProfile r /\
   amount (final (pay parseEther h r)) = amount r) \/
  (final (pay parseEther h r) = initial /\
   exists tx, In (Notify (funds_sent_toast tx)) (events (pay parseEther h r))).
Proof.
  destruct (pay_cases parseEther h r)
    as [[e Hp]|[[a [Hp Hs]]|[[a [p [Hp [Hs Hb]]]]|[a [p [Hp [Hs Hb]]]]]]].
  - left. rewrite (pay_parse_raises _ _ _ _ Hp). repeat split.
  - left. rewrite (pay_no_profile _ _ _ _ Hp Hs). repeat split.
  - left. rewrite (pay_insufficient _ _ _ _ _ Hp Hs Hb). repeat split.
  - rewrite (pay_reaches_try _ _ _ _ _ Hp Hs Hb).
    destruct (sdk h) as [w|].
    + destruct (wallet_transfer w (ownedBy p) (amount r)) as [tx|e].
      * right. split; [reflexivity|]. exists (Some tx). cbn. auto.
      * left. repeat split.
    + right. split; [reflexivity|]. exists None. cbn. auto.
Qed.

(* ===================================================================== *)
(** ** What [Home] renders and offers *)
(* ===================================================================== *)

Section Rendering.

Variable h : Hooks.
Variable r : State.

Lemma rows_app l1 l2 : rows (l1 ++ l2) = rows l1 ++ rows l2.
Proof. apply flat_map_app. Qed.

Lemma skeletons_app l1 l2 : skeletons (l1 ++ l2) = skeletons l1 + skeletons l2.
Proof. unfold skeletons. rewrite filter_app, length_app. reflexivity. Qed.

Lemma rows_of_profiles l :
  rows (map (fun p => ProfileRow p (SetSelectedProfile (Some p))) l) =
  map (fun p => (p, SetSelectedProfile (Some p))) l.
Proof. induction l as [|p l IH]; cbn; [reflexivity|]. rewrite <- IH. reflexivity. Qed.

Lemma skeletons_of_profiles l :
  skeletons (map (fun p => ProfileRow p (SetSelectedProfile (Some p))) l) = 0.
Proof. induction l as [|p l IH]; cbn; [reflexivity|]. exact IH. Qed.

(** The tree while nothing is selected. *)
Lemma payment_ui_browsing :
  selectedProfile r = None ->
  payment_ui h r =
    [Text "Your Balance";
     (if negb (loadingBalance h) then Heading (balance_text (balance h)) else Skeleton);
     Separator;
     Heading "Pay Someone";
     Input "Enter a .lens handle" (search r) SetSearch]
    ++ (if has_results h then [Heading "Results"] else [Spacer])
    ++ (if loadingProfiles h then repeat Skeleton 10
        else match profiles h with
             | Some l => map (fun p => ProfileRow p (SetSelectedProfile (Some p))) l
             | None => []
             end).
Proof.
  intros Hs. unfold payment_ui, no_selection, when. rewrite Hs. cbn [nullable ToBoolean negb andb].
  rewrite app_nil_r. reflexivity.
Qed.

(** The tree once a profile is selected. *)
Lemma payment_ui_reviewing p :
  selectedProfile r = Some p ->
  payment_ui h r =
    [Spacer;
     ChevronLeft (SetSelectedProfile None);
     Heading ("Pay " ++ display_name p);
     Text (ownedBy p);
     Input "Amount to pay in ETH" (amount r) SetAmount;
     Button (if loadingPay r then "Paying..." else "Pay") (loadingPay r) HandlePay;
     Text ("Your Balance: " ++ balance_text (balance h))].
Proof.
  intros Hs. unfold payment_ui, no_selection, when. rewrite Hs. reflexivity.
Qed.

End Rendering.

(** The gate of line 114 is open exactly for a non-empty address on the
    right network. *)
Lemma gate_open_iff (NODE_ENV : Environment) (h : Hooks) (r : State) :
  (exists c, Home NODE_ENV h r = PaymentUI c) <->
  (exists a, address h = Some a /\ a <> "") /\ wrongNetwork h = false.
Proof.
  unfold Home. split.
  - intros [c Hc].
    destruct (address h) as [a|] eqn:Ha; cbn [optional_string ToBoolean negb orb] in Hc;
      [|discriminate Hc].
    destruct (a =? "") eqn:Hne; cbn [negb orb] in Hc; [discriminate Hc|].
    destruct (wrongNetwork h); [discriminate Hc|].
    apply String.eqb_neq in Hne.
    split; [exists a; split; [reflexivity | exact Hne] | reflexivity].
  - intros [[a [Ha Hne]] Hw]. rewrite Ha, Hw. cbn.
    apply String.eqb_neq in Hne. rewrite Hne. cbn. eexists. reflexivity.
Qed.

(** X5.  [Home] returns the payment UI exactly when the address is a
    non-empty string and the network is right; an address that is the
    empty string counts as no wallet. *)
Theorem Home_payment_ui_iff (NODE_ENV : Environment) (h : Hooks) (r : State) :
  (exists c, Home NODE_ENV h r = PaymentUI c) <->
  (exists a, address h = Some a /\ a <> "") /\ wrongNetwork h = false.
Proof. exact (gate_open_iff NODE_ENV h r). Qed.

(** X6.  While the profile search is loading and nothing is selected, the
    results are replaced by ten placeholders (one more stands for the
    balance while that is loading) and no profile row is rendered,
    whatever results the hook still holds. *)
Theorem loading_profiles_shows_ten_placeholders (h : Hooks) (r : State) :
  selectedProfile r = None ->
  loadingProfiles h = true ->
  rows (payment_ui h r) = [] /\
  skeletons (payment_ui h r) = 10 + (if loadingBalance h then 1 else 0).
Proof.
  intros Hs Hl. rewrite (payment_ui_browsing h r Hs), Hl.
  destruct (loadingBalance h); destruct (has_results h); split; reflexivity.
Qed.

Lemma loading_profiles_shows_ten_placeholders_witness :
  rows (payment_ui
          {| address := Some "0xB0B"; wrongNetwork := false;
             balance := None; loadingBalance := true; sdk := None;
             debouncedSearch := "al"; profiles := Some [Scenario.alice];
             loadingProfiles := true |}
          (Scenario.browsing "")) = [] /\
  skeletons (payment_ui
          {| address := Some "0xB0B"; wrongNetwork := false;
             balance := None; loadingBalance := true; sdk := None;
             debouncedSearch := "al"; profiles := Some [Scenario.alice];
             loadingProfiles := true |}
          (Scenario.browsing "")) = 11.
Proof.
  apply (loading_profiles_shows_ten_placeholders
           {| address := Some "0xB0B"; wrongNetwork := false;
              balance := None; loadingBalance := true; sdk := None;
              debouncedSearch := "al"; profiles := Some [Scenario.alice];
              loadingProfiles := true |}
           (Scenario.browsing "")); reflexivity.
Defined.

(** X7.  Once the search has loaded and nothing is selected, the tree has
    one row per profile of the result, in the order of the result, and
    each row selects its own profile; a non-empty result is headed
    "Results", and the spacer stands in for the heading exactly when the
    result is empty. *)
Theorem results_rows_select_their_profile (h : Hooks) (r : State) (l : list Profile) :
  selectedProfile r = None ->
  loadingProfiles h = false ->
  profiles h = Some l ->
  rows (payment_ui h r) = map (fun p => (p, SetSelectedProfile (Some p))) l /\
  (l <> [] -> In (Heading "Results") (payment_ui h r)) /\
  (In Spacer (payment_ui h r) <-> l = []).
Proof.
  intros Hs Hl Hp. rewrite (payment_ui_browsing h r Hs), Hl.
  unfold has_results. rewrite Hp. split.
  - rewrite !rows_app, rows_of_profiles.
    destruct (negb (loadingBalance h)); destruct l; reflexivity.
  - split.
    + intros Hne. destruct l as [|p l]; [contradiction Hne; reflexivity|].
      cbn. do 5 right. left. reflexivity.
    + split.
      * intros Hin. destruct l as [|p l]; [reflexivity|]. exfalso.
        apply in_app_or in Hin. destruct Hin as [Hin|Hin].
        { cbn in Hin. destruct Hin as [H|[H|[H|[H|[H|[]]]]]]; try discriminate H.
          destruct (negb (loadingBalance h)); discriminate H. }
        apply in_app_or in Hin. destruct Hin as [Hin|Hin].
        { cbn in Hin. destruct Hin as [H|[]]. discriminate H. }
        apply in_map_iff in Hin. destruct Hin as [q [H _]]. discriminate H.
      * intros ->. cbn. do 5 right. left. reflexivity.
Qed.

Lemma results_rows_select_their_profile_witness :
  rows (payment_ui (Scenario.hooks None None) (Scenario.browsing "")) =
    [(Scenario.alice, SetSelectedProfile (Some Scenario.alice))] /\
  ([Scenario.alice] <> [] ->
   In (Heading "Results")
      (payment_ui (Scenario.hooks None None) (Scenario.browsing ""))) /\
  (In Spacer (payment_ui (Scenario.hooks None None) (Scenario.browsing "")) <->
   [Scenario.alice] = []).
Proof.
  apply (results_rows_select_their_profile (Scenario.hooks None None)
           (Scenario.browsing "") [Scenario.alice]); reflexivity.
Defined.

(** X8.  With a profile selected the search side of the page is gone,
    whatever the search hook returns: no profile row and no placeholder is
    rendered; the tree has exactly one input, the amount box, showing
    [amount] and wired to [setAmount]; and it has exactly one Pay button,
    disabled exactly while [loadingPay] is set and then labelled
    "Paying...". *)
Theorem reviewing_hides_search (h : Hooks) (r : State) (p : Profile) :
  selectedProfile r = Some p ->
  rows (payment_ui h r) = [] /\
  skeletons (payment_ui h r) = 0 /\
  pay_buttons (payment_ui h r) =
    [(if loadingPay r then "Paying..." else "Pay", loadingPay r)] /\
  input_boxes (payment_ui h r) = [("Amount to pay in ETH", amount r)] /\
  In (Input "Amount to pay in ETH" (amount r) SetAmount) (payment_ui h r) /\
  (forall placeholder value onChange,
     In (Input placeholder value onChange) (payment_ui h r) ->
     placeholder = "Amount to pay in ETH" /\ value = amount r /\ onChange = SetAmount).
Proof.
  intros Hs. rewrite (payment_ui_reviewing h r p Hs).
  split; [reflexivity|]. split; [reflexivity|]. split; [reflexivity|].
  split; [reflexivity|].
  split; [do 4 right; left; reflexivity|].
  intros placeholder value onChange Hin. cbn in Hin.
  destruct Hin as [H|[H|[H|[H|[H|[H|[H|[]]]]]]]]; try discriminate H.
  injection H as <- <- <-. repeat split.
Qed.

Lemma reviewing_hides_search_witness :
  rows (payment_ui (Scenario.hooks None None) (Scenario.reviewing "1")) = [] /\
  skeletons (payment_ui (Scenario.hooks None None) (Scenario.reviewing "1")) = 0 /\
  pay_buttons (payment_ui (Scenario.hooks None None) (Scenario.reviewing "1")) =
    [("Pay", false)] /\
  input_boxes (payment_ui (Scenario.hooks None None) (Scenario.reviewing "1")) =
    [("Amount to pay in ETH", "1")] /\
  In (Input "Amount to pay in ETH" "1" SetAmount)
     (payment_ui (Scenario.hooks None None) (Scenario.reviewing "1")) /\
  (forall placeholder value onChange,
     In (Input placeholder value onChange)
        (payment_ui (Scenario.hooks None None) (Scenario.reviewing "1")) ->
     placeholder = "Amount to pay in ETH" /\
     value = amount (Scenario.reviewing "1") /\ onChange = SetAmount).
Proof.
  apply (reviewing_hides_search (Scenario.hooks None None)
           (Scenario.reviewing "1") Scenario.alice).
  reflexivity.
Defined.

(** The actions the tree of [Home] fires, by case on the render. *)
Lemma offered_actions (NODE_ENV : Environment) (h : Hooks) (r : State) (a : Action) :
  offers (Home NODE_ENV h r) a ->
  (a = SwitchChain (chainId (CHAIN NODE_ENV)) /\ wrongNetwork h = true) \/
  (wrongNetwork h = false /\
   (exists w, address h = Some w /\ w <> "") /\
   ((exists v, a = SetSearch v /\ selectedProfile r = None) \/
    (exists p l, a = SetSelectedProfile (Some p) /\ selectedProfile r = None /\
                 loadingProfiles h = false /\ profiles h = Some l /\ In p l) \/
    (a = SetSelectedProfile None /\ exists p, selectedProfile r = Some p) \/
    (exists v, a = SetAmount v /\ exists p, selectedProfile r = Some p) \/
    (a = HandlePay /\ loadingPay r = false /\ exists p, selectedProfile r = Some p))).
Proof.
  intros [e [Hin Hf]].
  destruct (Home NODE_ENV h r) as [c|c] eqn:HH.
  - left. unfold Home in HH.
    destruct (negb (ToBoolean (optional_string (address h))) || wrongNetwork h);
      [|discriminate HH].
    injection HH as <-. cbn in Hin. unfold connect_prompt, when in Hin.
    destruct Hin as [<-|[<-|Hin]]; [inversion Hf | inversion Hf |].
    apply in_app_or in Hin. destruct Hin as [Hin|Hin].
    + destruct (negb (ToBoolean (optional_string (address h)))).
      * destruct Hin as [<-|[]]. inversion Hf.
      * destruct Hin.
    + destruct (wrongNetwork h); [|destruct Hin].
      destruct Hin as [<-|[]]. inversion Hf. split; reflexivity.
  - right.
    assert (Hopen : exists c', Home NODE_ENV h r = PaymentUI c') by (exists c; exact HH).
    apply gate_open_iff in Hopen. destruct Hopen as [Ha Hw].
    split; [exact Hw|]. split; [exact Ha|].
    unfold Home in HH.
    destruct (negb (ToBoolean (optional_string (address h))) || wrongNetwork h);
      [discriminate HH|].
    injection HH as <-. cbn in Hin.
    destruct (selectedProfile r) as [p|] eqn:Hs.
    + rewrite (payment_ui_reviewing h r p Hs) in Hin. cbn in Hin.
      destruct Hin as [<-|[<-|[<-|[<-|[<-|[<-|[<-|[]]]]]]]]; inversion Hf; subst.
      * right. right. left. split; [reflexivity|]. exists p. reflexivity.
      * right. right. right. left. eexists. split; [reflexivity|].
        exists p. reflexivity.
      * right. right. right. right. split; [reflexivity|].
        split; [congruence|]. exists p. reflexivity.
    + rewrite (payment_ui_browsing h r Hs) in Hin.
      apply in_app_or in Hin. destruct Hin as [Hin|Hin].
      { destruct (negb (loadingBalance h)); cbn in Hin;
          destruct Hin as [<-|[<-|[<-|[<-|[<-|[]]]]]]; inversion Hf; subst;
          left; eexists; split; reflexivity. }
      apply in_app_or in Hin. destruct Hin as [Hin|Hin].
      { destruct (has_results h); destruct Hin as [<-|[]]; inversion Hf. }
      destruct (loadingProfiles h) eqn:Hl.
      { apply repeat_spec in Hin. subst e. inversion Hf. }
      destruct (profiles h) as [l|] eqn:Hp; [|destruct Hin].
      apply in_map_iff in Hin. destruct Hin as [q [<- Hq]].
      inversion Hf; subst.
      right. left. exists q, l. repeat split; auto.
Qed.

(** X9.  What the page lets the user do.  An action offered by the tree of
    [Home] is the chain switch to [CHAIN.chainId], offered only on the
    wrong network, or, with a wallet connected on the right network, one
    of: typing in the search box or picking a profile of the loaded search
    result, both only while nothing is selected; going back or typing an
    amount, both only while a profile is selected; and Pay, only while a
    profile is selected and no payment is in progress. *)
Theorem Home_offers (NODE_ENV : Environment) (h : Hooks) (r : State) (a : Action) :
  offers (Home NODE_ENV h r) a ->
  (a = SwitchChain (chainId (CHAIN NODE_ENV)) /\ wrongNetwork h = true) \/
  (wrongNetwork h = false /\
   (exists w, address h = Some w /\ w <> "") /\
   ((exists v, a = SetSearch v /\ selectedProfile r = None) \/
    (exists p l, a = SetSelectedProfile (Some p) /\ selectedProfile r = None /\
                 loadingProfiles h = false /\ profiles h = Some l /\ In p l) \/
    (a = SetSelectedProfile None /\ exists p, selectedProfile r = Some p) \/
    (exists v, a = SetAmount v /\ exists p, selectedProfile r = Some p) \/
    (a = HandlePay /\ loadingPay r = false /\ exists p, selectedProfile r = Some p))).
Proof. exact (offered_actions NODE_ENV h r a). Qed.

Lemma Home_offers_witness :
  (HandlePay = SwitchChain (chainId (CHAIN (Some "production"))) /\
   wrongNetwork (Scenario.hooks None None) = true) \/
  (wrongNetwork (Scenario.hooks None None) = false /\
   (exists w, address (Scenario.hooks None None) = Some w /\ w <> "") /\
   ((exists v, HandlePay = SetSearch v /\
               selectedProfile (Scenario.reviewing "1") = None) \/
    (exists p l, HandlePay = SetSelectedProfile (Some p) /\
                 selectedProfile (Scenario.reviewing "1") = None /\
                 loadingProfiles (Scenario.hooks None None) = false /\
                 profiles (Scenario.hooks None None) = Some l /\ In p l) \/
    (HandlePay = SetSelectedProfile None /\
     exists p, selectedProfile (Scenario.reviewing "1") = Some p) \/
    (exists v, HandlePay = SetAmount v /\
               exists p, selectedProfile (Scenario.reviewing "1") = Some p) \/
    (HandlePay = HandlePay /\ loadingPay (Scenario.reviewing "1") = false /\
     exists p, selectedProfile (Scenario.reviewing "1") = Some p))).
Proof.
  apply (Home_offers (Some "production") (Scenario.hooks None None)
           (Scenario.reviewing "1") HandlePay).
  exists (Button "Pay" false HandlePay). split.
  - cbn. do 5 right. left. reflexivity.
  - constructor.
Defined.

Lemma switch_requests_of_profiles l :
  switch_requests (map (fun p => ProfileRow p (SetSelectedProfile (Some p))) l) = [].
Proof. induction l as [|p l IH]; cbn; [reflexivity | exact IH]. Qed.

(** X10.  The tree of [Home] holds a switch button exactly on the wrong
    network, and then one, for [CHAIN.chainId]: the payment UI never asks
    the wallet to change chain. *)
Theorem switch_offered_iff_wrong_network
    (NODE_ENV : Environment) (h : Hooks) (r : State) :
  switch_requests (children (Home NODE_ENV h r)) =
    if wrongNetwork h then [chainId (CHAIN NODE_ENV)] else [].
Proof.
  unfold Home.
  destruct (negb (ToBoolean (optional_string (address h))) || wrongNetwork h) eqn:Hgate.
  - cbn [children]. unfold connect_prompt.
    destruct (negb (ToBoolean (optional_string (address h))));
      destruct (wrongNetwork h); reflexivity.
  - apply orb_false_iff in Hgate. destruct Hgate as [_ Hw]. rewrite Hw.
    cbn [children].
    destruct (selectedProfile r) as [p|] eqn:Hs.
    + rewrite (payment_ui_reviewing h r p Hs). reflexivity.
    + rewrite (payment_ui_browsing h r Hs). unfold switch_requests.
      rewrite !flat_map_app. fold switch_requests.
      destruct (negb (loadingBalance h)); destruct (has_results h);
        destruct (loadingProfiles h); try reflexivity;
        (destruct (profiles h) as [l|]; [|reflexivity]);
        cbn; apply switch_requests_of_profiles.
Qed.

(** Every setter leaves the in-progress flag alone, and Pay is not offered
    while it is set. *)
Lemma offered_action_keeps_flag_set
    (parseEther : string -> Throws BigNumber) (NODE_ENV : Environment)
    (h : Hooks) (r : State) (a : Action) :
  loadingPay r = true ->
  offers (Home NODE_ENV h r) a ->
  loadingPay (dispatch parseEther h r a) = true.
Proof.
  intros Hflag Ho. apply offered_actions in Ho.
  destruct Ho as [[-> _]|[_ [_ [[v [-> _]]|[[p [l [-> _]]]|[[-> _]|[[v [-> _]]|[_ [Hfree _]]]]]]]]];
    try exact Hflag.
  congruence.
Qed.

(** X11.  Once the in-progress flag is left set (as the early returns of
    [handlePay] leave it), nothing the page offers clears it: through any
    sequence of renders and user actions the flag stays set, the Pay
    button stays disabled, and no further payment can be submitted. *)
Theorem loadingPay_stays_set
    (parseEther : string -> Throws BigNumber) (NODE_ENV : Environment)
    (r r' : State) :
  loadingPay r = true ->
  session parseEther NODE_ENV r r' ->
  loadingPay r' = true /\
  forall h, ~ offers (Home NODE_ENV h r') HandlePay.
Proof.
  intros Hflag Hsession. induction Hsession as [r|r h a r' Ho _ IH].
  - split; [exact Hflag|]. intros h Ho. apply offered_actions in Ho.
    destruct Ho as [[H _]|[_ [_ [[v [H _]]|[[p [l [H _]]]|[[H _]|[[v [H _]]|[_ [Hfree _]]]]]]]]];
      try discriminate H.
    congruence.
  - apply IH. apply (offered_action_keeps_flag_set _ NODE_ENV); assumption.
Qed.

Lemma loadingPay_stays_set_witness :
  let h := Scenario.hooks (Some Scenario.one_ether) (Some Scenario.wallet_ok) in
  let r := final (pay parseEther h (Scenario.reviewing "2.0")) in
  let r' := dispatch parseEther h r (SetAmount "0.5") in
  loadingPay r' = true /\
  forall h', ~ offers (Home (Some "production") h' r') HandlePay.
Proof.
  apply (loadingPay_stays_set parseEther (Some "production")
           (final (pay parseEther
                     (Scenario.hooks (Some Scenario.one_ether) (Some Scenario.wallet_ok))
                     (Scenario.reviewing "2.0")))).
  - vm_compute. reflexivity.
  - apply (session_step parseEther (Some "production") _
             (Scenario.hooks (Some Scenario.one_ether) (Some Scenario.wallet_ok))
             (SetAmount "0.5")).
    + exists (Input "Amount to pay in ETH" "2.0" SetAmount). split.
      * vm_compute. do 4 right. left. reflexivity.
      * apply (fires_input "Amount to pay in ETH" "2.0" SetAmount "0.5").
    + apply session_done.
Defined.

(** X12.  The Pay button exists only beside a selected profile, so a click
    the page offers never ends in the "Invalid Profile selected."
    notification: the check of line 61 cannot fail from the page. *)
Theorem offered_pay_has_a_profile
    (parseEther : string -> Throws BigNumber) (NODE_ENV : Environment)
    (h : Hooks) (r : State) :
  offers (Home NODE_ENV h r) HandlePay ->
  ~ In (Notify invalid_profile_toast) (events (pay parseEther h r)).
Proof.
  intros Ho. apply offered_actions in Ho.
  destruct Ho as [[H _]|[_ [_ [[v [H _]]|[[p [l [H _]]]|[[H _]|[[v [H _]]|[_ [_ [q Hq]]]]]]]]]];
    try discriminate H.
  destruct (pay_cases parseEther h r)
    as [[e Hp]|[[a [Hp Hs]]|[[a [p [Hp [Hs Hb]]]]|[a [p [Hp [Hs Hb]]]]]]].
  - rewrite (pay_parse_raises _ _ _ _ Hp). cbn. tauto.
  - congruence.
  - rewrite (pay_insufficient _ _ _ _ _ Hp Hs Hb). cbn.
    intros [H|[]]. discriminate H.
  - rewrite (pay_reaches_try _ _ _ _ _ Hp Hs Hb).
    destruct (sdk h) as [w|].
    + destruct (wallet_transfer w (ownedBy p) (amount r)); cbn;
        intros [H|[H|[]]]; discriminate H.
    + cbn. intros [H|[]]. discriminate H.
Qed.

Lemma offered_pay_has_a_profile_witness :
  ~ In (Notify invalid_profile_toast)
       (events (pay parseEther (Scenario.hooks None None) (Scenario.reviewing "1"))).
Proof.
  apply (offered_pay_has_a_profile parseEther (Some "production")
           (Scenario.hooks None None) (Scenario.reviewing "1")).
  exists (Button "Pay" false HandlePay). split.
  - cbn. do 5 right. left. reflexivity.
  - constructor.
Defined.

(** X14.  Pay can be clicked exactly when a wallet is connected on the
    right network, a profile is selected and no payment is in progress:
    while [loadingPay] is set the button is disabled, so a second click
    cannot submit the payment again. *)
Theorem pay_offered_iff (NODE_ENV : Environment) (h : Hooks) (r : State) :
  offers (Home NODE_ENV h r) HandlePay <->
  (exists w, address h = Some w /\ w <> "") /\
  wrongNetwork h = false /\
  (exists p, selectedProfile r = Some p) /\
  loadingPay r = false.
Proof.
  split.
  - intros Ho. apply offered_actions in Ho.
    destruct Ho as [[H _]|[Hw [Ha [[v [H _]]|[[p [l [H _]]]|[[H _]|[[v [H _]]|[_ [Hfree Hp]]]]]]]]];
      try discriminate H.
    repeat split; assumption.
  - intros [[w [Ha Hne]] [Hw [[p Hs] Hfree]]].
    exists (Button "Pay" false HandlePay). split; [|constructor].
    rewrite (Home_connected NODE_ENV h r w Ha Hne Hw). cbn [children].
    rewrite (payment_ui_reviewing h r p Hs), Hfree.
    do 5 right. left. reflexivity.
Qed.

(* ===================================================================== *)
(** ** Amounts with a minus sign *)
(* ===================================================================== *)

Section NegativeAmounts.

Let digit_or_dot := fun c => is_digit c || is_dot c.

Lemma of_digits_nonneg s : forall acc, (0 <= acc)%Z -> (0 <= of_digits acc s)%Z.
Proof.
  induction s as [|c s IH]; cbn [of_digits]; intros acc Hacc; [exact Hacc|].
  apply IH. unfold digit_value. lia.
Qed.

Lemma digits_have_no_minus x :
  all_chars is_digit x = true -> starts_with_minus x = false.
Proof.
  destruct x as [|c x]; cbn; [reflexivity|].
  intros H. apply andb_true_iff in H. destruct H as [Hc _].
  unfold is_minus. destruct (Ascii.eqb c "-") eqn:E; [|reflexivity].
  apply Ascii.eqb_eq in E. subst c. discriminate Hc.
Qed.

Lemma BigNumber_from_digits_nonneg x v :
  all_chars is_digit x = true -> BigNumber_from x = Returns v -> (0 <= v)%Z.
Proof.
  intros Hx. unfold BigNumber_from. rewrite (digits_have_no_minus x Hx).
  destruct (match_integer x); [|discriminate].
  intros H. injection H as <-. apply of_digits_nonneg. lia.
Qed.

Lemma all_chars_app p s t :
  all_chars p (s ++ t) = all_chars p s && all_chars p t.
Proof.
  induction s as [|c s IH]; cbn; [reflexivity|].
  rewrite IH. apply andb_assoc.
Qed.

Lemma zeros_are_digits n : all_chars is_digit (zeros n) = true.
Proof. induction n as [|n IH]; cbn; [reflexivity | exact IH]. Qed.

Lemma trimmed_digits s :
  all_chars is_digit s = true -> all_chars is_digit (trim_trailing_zeros s) = true.
Proof.
  induction s as [|c s IH]; cbn; [reflexivity|].
  intros H. apply andb_true_iff in H. destruct H as [Hc Hs].
  specialize (IH Hs).
  destruct (trim_trailing_zeros s) as [|c' s'].
  - destruct (Ascii.eqb c "0"); cbn; [reflexivity|]. rewrite Hc. reflexivity.
  - cbn in IH |- *. rewrite Hc. exact IH.
Qed.

Lemma split_dot_digits s :
  all_chars digit_or_dot s = true ->
  Forall (fun x => all_chars is_digit x = true) (split_dot s).
Proof.
  induction s as [|c s IH]; cbn; intros H.
  - constructor; [reflexivity | constructor].
  - apply andb_true_iff in H. destruct H as [Hc Hs]. specialize (IH Hs).
    unfold digit_or_dot in Hc.
    destruct (is_dot c) eqn:Hdot.
    + constructor; [reflexivity | exact IH].
    + rewrite orb_false_r in Hc.
      destruct (split_dot s) as [|x t].
      * constructor; [cbn; rewrite Hc; reflexivity | constructor].
      * inversion IH as [|? ? Hx Ht]; subst.
        constructor; [cbn; rewrite Hc; exact Hx | exact Ht].
Qed.

Lemma nth_digits k l :
  Forall (fun x => all_chars is_digit x = true) l ->
  all_chars is_digit (nth k l EmptyString) = true.
Proof.
  intros Hl. revert k. induction Hl as [|x l Hx _ IH]; intros [|k]; cbn; auto.
Qed.

(** A string with a minus sign that [parseEther] accepts is parsed to a
    quantity that is not positive. *)
Lemma parseEther_minus_not_positive s v :
  starts_with_minus s = true -> parseEther s = Returns v -> (v <= 0)%Z.
Proof.
  intros Hminus. unfold parseEther, parseFixed. cbv zeta.
  destruct (match_decimal s) eqn:Hm; cbn [negb]; [|discriminate].
  unfold match_decimal in Hm. rewrite Hminus in Hm |- *.
  apply andb_true_iff in Hm. destruct Hm as [_ Hall].
  fold digit_or_dot in Hall.
  destruct (substring1 s =? ".") eqn:Hdot; [discriminate|].
  destruct (2 <? List.length (split_dot (substring1 s)))%nat; [discriminate|].
  pose proof (split_dot_digits _ Hall) as Hcomps.
  set (whole := if nth 0 (split_dot (substring1 s)) "" =? "" then "0"
                else nth 0 (split_dot (substring1 s)) "").
  set (fraction := trim_trailing_zeros
                     (if nth 1 (split_dot (substring1 s)) "" =? "" then "0"
                      else nth 1 (split_dot (substring1 s)) "")).
  assert (Hwhole : all_chars is_digit whole = true).
  { unfold whole. destruct (nth 0 (split_dot (substring1 s)) "" =? "");
      [reflexivity | apply nth_digits; exact Hcomps]. }
  assert (Hfraction : all_chars is_digit fraction = true).
  { unfold fraction. apply trimmed_digits.
    destruct (nth 1 (split_dot (substring1 s)) "" =? "");
      [reflexivity | apply nth_digits; exact Hcomps]. }
  destruct (String.length (getMultiplier 18) - 1 <? String.length fraction)%nat;
    [discriminate|].
  set (padded := pad_zeros (String.length (getMultiplier 18) - 1)
                           (if fraction =? "" then "0" else fraction)).
  assert (Hpadded : all_chars is_digit padded = true).
  { unfold padded, pad_zeros. rewrite all_chars_app, zeros_are_digits, andb_true_r.
    destruct (fraction =? ""); [reflexivity | exact Hfraction]. }
  destruct (BigNumber_from whole) as [wholeValue|] eqn:Hw;
    [|destruct (BigNumber_from padded); destruct (BigNumber_from (getMultiplier 18));
      discriminate].
  destruct (BigNumber_from padded) as [fractionValue|] eqn:Hf;
    [|destruct (BigNumber_from (getMultiplier 18)); discriminate].
  destruct (BigNumber_from (getMultiplier 18)) as [m|] eqn:Hmul; [|discriminate].
  intros H. injection H as <-.
  apply BigNumber_from_digits_nonneg in Hw; [|exact Hwhole].
  apply BigNumber_from_digits_nonneg in Hf; [|exact Hpadded].
  apply BigNumber_from_digits_nonneg in Hmul; [|reflexivity].
  nia.
Qed.

End NegativeAmounts.

(** X13.  An amount written with a minus sign is never turned down by a
    notification.  With a profile selected, an SDK present and a balance
    that is unknown or not negative, either [parseEther] throws on the
    string or the wallet is asked to transfer it, minus sign included. *)
Theorem negative_amount_is_not_rejected
    (h : Hooks) (r : State) (profile : Profile) (w : SDK) :
  starts_with_minus (amount r) = true ->
  selectedProfile r = Some profile ->
  sdk h = Some w ->
  (forall b, balance h = Some b -> (0 <= value b)%Z) ->
  (exists e, pay parseEther h r = mkOutcome (submitting r) [] (Raises e)) \/
  In (Transfer (ownedBy profile) (amount r)) (events (pay parseEther h r)).
Proof.
  intros Hminus Hs Hk Hb.
  destruct (parseEther (amount r)) as [amountBN|e] eqn:Hp.
  - right.
    pose proof (parseEther_minus_not_positive _ _ Hminus Hp) as Hle.
    assert (Henough : forall b, balance h = Some b -> (amountBN <= value b)%Z).
    { intros b Hbal. specialize (Hb b Hbal). lia. }
    rewrite (pay_reaches_try parseEther h r profile amountBN Hp Hs Henough), Hk.
    destruct (wallet_transfer w (ownedBy profile) (amount r)); cbn; auto.
  - left. exists e. apply pay_parse_raises. exact Hp.
Qed.

Lemma negative_amount_is_not_rejected_witness :
  (exists e,
     pay parseEther (Scenario.hooks (Some Scenario.one_ether) (Some Scenario.wallet_ok))
         (Scenario.reviewing "-1") =
     mkOutcome (submitting (Scenario.reviewing "-1")) [] (Raises e)) \/
  In (Transfer (ownedBy Scenario.alice) (amount (Scenario.reviewing "-1")))
     (events (pay parseEther
                (Scenario.hooks (Some Scenario.one_ether) (Some Scenario.wallet_ok))
                (Scenario.reviewing "-1"))).
Proof.
  apply (negative_amount_is_not_rejected
           (Scenario.hooks (Some Scenario.one_ether) (Some Scenario.wallet_ok))
           (Scenario.reviewing "-1") Scenario.alice Scenario.wallet_ok).
  - reflexivity.
  - reflexivity.
  - reflexivity.
  - intros b Hb. injection Hb as <-. vm_compute. discriminate.
Defined.
